(** * The SMAC tuning scripts of scala-tetris

    A shallow embedding of the two scripts
    [src/main/python/smac_optimize.py] (five parameters, twenty games per
    evaluation, the SMAC4HPO facade) and [src/python/smac_optimize.py]
    (twelve parameters, a hundred games, the SMAC4BO facade), and the
    properties of the callback they hand to the optimizer.

    Python statements become computations of a state-and-exception monad.
    The state holds the process environment, the chronological list of the
    operations the script performs on the outside (environment writes, class
    lookups, printed lines, calls of the Java entry point) and the state of
    the foreign world (the JVM behind [jnius] and the optimizer), whose
    answers are not fixed by the scripts. *)

From Stdlib Require Import ZArith List String Ascii Bool Lia.
From Stdlib Require Import DecimalString PrimFloat Permutation.
From Stdlib Require Import DecimalPos DecimalZ SpecFloat FloatAxioms.
Import ListNotations.

Local Open Scope string_scope.
Local Open Scope Z_scope.

(** ** Python values and built-ins used by the scripts *)

Module Py.

(** [range(lo, hi)]: empty as soon as [hi <= lo]. *)
Definition range (lo hi : Z) : list Z :=
  map (fun k => lo + Z.of_nat k) (seq 0 (Z.to_nat (hi - lo))).

(** [str(i)] of an integer, as the replacement field [{i}] of an f-string
    renders it. *)
Definition str (i : Z) : string := NilZero.string_of_int (Z.to_int i).

(** Exceptions. [KeyError] is what subscripting raises on an absent key;
    the other two come from the foreign side. *)
Inductive exn : Type :=
| KeyError (key : string)
| JavaException (msg : string)
| OptimizerError (msg : string).

Inductive result (A : Type) : Type :=
| Ok (a : A)
| Raised (e : exn).
Arguments Ok {A} a.
Arguments Raised {A} e.

(** A mapping with string keys, as a list of items in iteration order.
    Keys of a well-formed mapping are pairwise distinct. *)
Definition dict (V : Type) : Type := list (string * V).

Definition keys {V} (d : dict V) : list string := map fst d.

Fixpoint get {V} (d : dict V) (k : string) : option V :=
  match d with
  | [] => None
  | (k', v) :: d' => if String.eqb k' k then Some v else get d' k
  end.

(** [d[k]] *)
Definition getitem {V} (d : dict V) (k : string) : result V :=
  match get d k with
  | Some v => Ok v
  | None => Raised (KeyError k)
  end.

(** [d[k] = v]: the value of an existing key is replaced in place, a new
    key goes to the end. *)
Fixpoint setitem {V} (d : dict V) (k : string) (v : V) : dict V :=
  match d with
  | [] => [(k, v)]
  | (k', v') :: d' =>
      if String.eqb k' k then (k', v) :: d' else (k', v') :: setitem d' k v
  end.

End Py.
Import Py.

(** ** The objects of the libraries the scripts use *)

(** A sampled configuration: parameter name to value. It is read as a
    mapping, whose subscript raises [KeyError] on a key it lacks; the
    objects an optimizer library hands to the callback agree with this
    reading on the names they hold, which is what the properties of
    complete configurations rest on. *)
Definition Configuration : Type := dict float.

(** [UniformFloatHyperparameter(name, lower, upper, default_value=...)]. The
    scripts pass the integer literals [0], [100] and [1]. *)
Record UniformFloatHyperparameter : Type := mkUniformFloat {
  hp_name : string;
  hp_lower : Z;
  hp_upper : Z;
  hp_default_value : Z
}.

(** [ConfigurationSpace()]: the hyperparameters added so far, in order. *)
Definition ConfigurationSpace : Type := list UniformFloatHyperparameter.

(** The values that occur in the option dictionary of a [Scenario]. *)
Inductive option_value : Type :=
| VStr (s : string)
| VInt (i : Z)
| VSpace (cs : ConfigurationSpace).

Record Scenario : Type := mkScenario { scenario_options : dict option_value }.

(** [np.random.RandomState(seed)] *)
Record RandomState : Type := mkRandomState { rng_seed : Z }.

Inductive Facade : Type := SMAC4HPO | SMAC4BO.

(** The class proxy [autoclass] returns. *)
Record JavaClass : Type := mkJavaClass { class_name : string }.

(** ** What the scripts do on the outside *)

(** The two lines a call of the callback prints: [f'params:{params}'] and
    the returned value. Their text is left symbolic. *)
Inductive printed : Type :=
| PParams (params : list float)
| PRet (ret : float).

Inductive event : Type :=
| EnvironSet (key value : string)
| AutoclassCall (name : string)
| PrintLine (line : printed)
| EvaluatorCall (params : list float) (trials : Z).

Definition writes_environ (e : event) : bool :=
  match e with EnvironSet _ _ => true | _ => false end.

(** ** The foreign side

    The answers of the JVM and of the optimizer are not determined by the
    scripts: the evaluator plays random games, the optimizer samples. They
    are functions of a world state that each call may change. *)
Class Foreign (W : Type) : Type := {
  (** [jnius.autoclass(name)]: the proxy, or the exception of a class that
      cannot be found. *)
  jnius_autoclass : string -> W -> result JavaClass * W;
  (** The static Java method [cls.runStrategyWithConfiguration(params, n)]. *)
  java_runStrategyWithConfiguration :
    JavaClass -> list float -> Z -> W -> result float * W;
  (** The facade's constructor, [SMAC4HPO(scenario=..., rng=..., ...)] or
      [SMAC4BO(...)]: the library takes the scenario and the random state
      it is given, or rejects them with an exception. *)
  smac_construct : Facade -> Scenario -> RandomState -> W -> result unit * W;
  (** The optimizer picks the next configuration to try, or stops. *)
  smac_ask : W -> option Configuration * W;
  (** The optimizer takes the outcome of a trial, and goes on or aborts. *)
  smac_tell : Configuration -> result float -> W -> result unit * W
}.

(** ** The monad of statements *)

Section Statements.

Context {W : Type}.

Record state : Type := mkState {
  world : W;
  environ : dict string;
  trace : list event
}.

Definition M (A : Type) : Type := state -> result A * state.

Definition ret {A} (a : A) : M A := fun s => (Ok a, s).

Definition raise {A} (e : exn) : M A := fun s => (Raised e, s).

Definition bind {A B} (c : M A) (k : A -> M B) : M B :=
  fun s =>
    match c s with
    | (Ok a, s') => k a s'
    | (Raised e, s') => (Raised e, s')
    end.

Definition lift {A} (r : result A) : M A := fun s => (r, s).

Definition emit (e : event) : M unit :=
  fun s => (Ok tt, mkState (world s) (environ s) (trace s ++ [e])).

(** A call across the foreign boundary: the world answers and moves on. *)
Definition foreign {A} (f : W -> result A * W) : M A :=
  fun s =>
    let (r, w) := f (world s) in
    (r, mkState w (environ s) (trace s)).

(** [os.environ[key] = value] *)
Definition environ_setitem (key value : string) : M unit :=
  fun s =>
    (Ok tt,
     mkState (world s) (setitem (environ s) key value)
             (trace s ++ [EnvironSet key value])).

(** [print(...)] *)
Definition print (line : printed) : M unit := emit (PrintLine line).

End Statements.

Arguments state W : clear implicits.
Arguments M W A : clear implicits.

Declare Scope py_scope.
Delimit Scope py_scope with py.
Notation "x <- c ;; k" := (bind c (fun x => k))
  (at level 61, c at next level, right associativity) : py_scope.
Notation "c ;;; k" := (bind c (fun _ => k))
  (at level 61, right associativity) : py_scope.
Local Open Scope py_scope.

(** A list comprehension [[f(i) for i in l]] whose element expression may
    raise: elements are evaluated left to right and the first exception ends
    the comprehension. *)
Fixpoint comprehension {A B} (f : A -> result B) (l : list A) : result (list B) :=
  match l with
  | [] => Ok []
  | a :: l' =>
      match f a with
      | Raised e => Raised e
      | Ok b =>
          match comprehension f l' with
          | Raised e => Raised e
          | Ok bs => Ok (b :: bs)
          end
      end
  end.

(** ** The scripts

    The two files differ in three places only: the number of parameters
    ([n_params = 5] against the literal [12]), the number of games the
    evaluator is asked to play ([20] against [100]) and the facade
    ([SMAC4HPO] against [SMAC4BO]). The common text is embedded once, over
    these three. *)

Section Harness.

Context {W : Type} {foreign_world : Foreign W}.

Variable n_params : Z.
Variable trials : Z.
Variable facade : Facade.

(** [autoclass(name)] *)
Definition autoclass (name : string) : M W JavaClass :=
  emit (AutoclassCall name) ;;;
  foreign (jnius_autoclass name).

(** [cls.runStrategyWithConfiguration(params, n)] *)
Definition runStrategyWithConfiguration
    (cls : JavaClass) (params : list float) (n : Z) : M W float :=
  emit (EvaluatorCall params n) ;;;
  foreign (java_runStrategyWithConfiguration cls params n).

(** [f'x{i}'] *)
Definition param_name (i : Z) : string := "x" ++ str i.

(** [[x[f'x{i}'] for i in range(0, n_params)]] *)
Definition params_of (x : Configuration) : result (list float) :=
  comprehension (fun i => getitem x (param_name i)) (range 0 n_params).

(** The callback handed to the optimizer:
<<
    def fun_to_optimize(x):
        from jnius import autoclass
        RunStrategy = autoclass('RunStrategy')
        params = [x[f'x{i}'] for i in range(0, n_params)]
        print(f'params:{params}')
        ret = -RunStrategy.runStrategyWithConfiguration(params, 20)
        print(ret)
        return ret
>>
    with [12] for [n_params] and [100] for [20] in the second script. *)
Definition fun_to_optimize (x : Configuration) : M W float :=
  RunStrategy <- autoclass "RunStrategy" ;;
  params <- lift (params_of x) ;;
  print (PParams params) ;;;
  raw <- runStrategyWithConfiguration RunStrategy params trials ;;
  let ret_ := (- raw)%float in
  print (PRet ret_) ;;;
  ret ret_.

(** The four ways a call of [fun_to_optimize] can go, each with its outcome
    and final state: the class is not found; a parameter is absent from the
    configuration; the evaluator raises; the evaluator returns a score. *)
Inductive callback_run (x : Configuration) (s : state W)
    : result float * state W -> Prop :=
| run_unresolved e w :
    jnius_autoclass "RunStrategy" (world s) = (Raised e, w) ->
    callback_run x s
      (Raised e,
       mkState w (environ s) (trace s ++ [AutoclassCall "RunStrategy"]))
| run_key_error cls w e :
    jnius_autoclass "RunStrategy" (world s) = (Ok cls, w) ->
    params_of x = Raised e ->
    callback_run x s
      (Raised e,
       mkState w (environ s) (trace s ++ [AutoclassCall "RunStrategy"]))
| run_failed cls w params e w' :
    jnius_autoclass "RunStrategy" (world s) = (Ok cls, w) ->
    params_of x = Ok params ->
    java_runStrategyWithConfiguration cls params trials w = (Raised e, w') ->
    callback_run x s
      (Raised e,
       mkState w' (environ s)
         (trace s ++ [AutoclassCall "RunStrategy"; PrintLine (PParams params);
                      EvaluatorCall params trials]))
| run_scored cls w params raw w' :
    jnius_autoclass "RunStrategy" (world s) = (Ok cls, w) ->
    params_of x = Ok params ->
    java_runStrategyWithConfiguration cls params trials w = (Ok raw, w') ->
    callback_run x s
      (Ok (- raw)%float,
       mkState w' (environ s)
         (trace s ++ [AutoclassCall "RunStrategy"; PrintLine (PParams params);
                      EvaluatorCall params trials;
                      PrintLine (PRet (- raw)%float)])).

(** What a call of the callback may add to the trace: the class lookup,
    printed lines, and evaluator calls with [n_params] parameters and [trials]
    games. *)
Definition callback_event (e : event) : Prop :=
  match e with
  | EnvironSet _ _ => False
  | AutoclassCall name => name = "RunStrategy"
  | PrintLine _ => True
  | EvaluatorCall p t => t = trials /\ List.length p = Z.to_nat n_params
  end.

(** [cs.add_hyperparameters(hyper_params)] *)
Definition add_hyperparameters
    (cs : ConfigurationSpace) (hps : list UniformFloatHyperparameter)
    : M W ConfigurationSpace :=
  ret (cs ++ hps)%list.

(** The list [hyper_params] of the scripts. *)
Definition hyper_params : list UniformFloatHyperparameter :=
  map (fun i => mkUniformFloat (param_name i) 0 100 1) (range 0 n_params).

(** The lines that build the space:
<<
    cs = ConfigurationSpace()
    hyper_params = [UniformFloatHyperparameter(f"x{i}", 0, 100, default_value=1)
                    for i in range(0, n_params)]
    cs.add_hyperparameters(hyper_params)
>> *)
Definition configuration_space : M W ConfigurationSpace :=
  let cs := [] in
  add_hyperparameters cs hyper_params.

(** [Scenario({...})]: the object keeps the options it is given. *)
Definition new_Scenario (options : dict option_value) : M W Scenario :=
  ret (mkScenario options).

(** The scenario of the scripts. The value of ["deterministic"] is the
    string ["false"], as written there. *)
Definition scenario (cs : ConfigurationSpace) : M W Scenario :=
  new_Scenario
    [ ("run_obj", VStr "quality");
      ("runcount-limit", VInt 999999);
      ("cs", VSpace cs);
      ("deterministic", VStr "false") ].

(** The optimizer object: facade, scenario, random state and callback. *)
Record SMAC : Type := mkSMAC {
  smac_facade : Facade;
  smac_scenario : Scenario;
  smac_rng : RandomState;
  tae_runner : Configuration -> M W float
}.

(** The facade's constructor, a call into the optimizer library with the
    scenario and the random state; the callback is kept for the run. *)
Definition new_SMAC (f : Facade) (sc : Scenario) (rng : RandomState)
    (tae : Configuration -> M W float) : M W SMAC :=
  foreign (smac_construct f sc rng) ;;;
  ret (mkSMAC f sc rng tae).

(** Modelled from the spec: the run loop of the optimizer library, which
    is not part of the repository. The optimizer repeatedly samples a
    configuration, invokes the callback and uses the returned score to
    decide the next sample, until the evaluation cap is reached or it is
    stopped from outside; what it does with a trial that raised is its own
    decision. *)
Fixpoint optimize_loop (tae : Configuration -> M W float) (budget : nat)
    : M W unit :=
  match budget with
  | O => ret tt
  | S budget' =>
      next <- foreign (fun w => let (x, w') := smac_ask w in (Ok x, w')) ;;
      match next with
      | None => ret tt
      | Some x =>
          fun s =>
            let (outcome, s') := tae x s in
            (foreign (smac_tell x outcome) ;;;
             optimize_loop tae budget') s'
      end
  end.

(** Modelled from the spec: [smac.optimize()], the loop above under the
    evaluation cap of the scenario. *)
Definition optimize (smac : SMAC) : M W unit :=
  match get (scenario_options (smac_scenario smac)) "runcount-limit" with
  | Some (VInt cap) => optimize_loop (tae_runner smac) (Z.to_nat cap)
  | _ => raise (OptimizerError "runcount-limit")
  end.

(** [smac_opt()] *)
Definition smac_opt : M W unit :=
  cs <- configuration_space ;;
  sc <- scenario cs ;;
  smac <- new_SMAC facade sc (mkRandomState 42) fun_to_optimize ;;
  optimize smac.

(** The value the scripts give to [CLASSPATH]. *)
Definition classpath : string :=
  "../../target/scala-2.13/Tetris-assembly-0.1.jar".

(** The module body: the assignment to [os.environ] at import time, then
    [smac_opt()] when the file is run as a script. *)
Definition module_body (name__ : string) : M W unit :=
  environ_setitem "CLASSPATH" classpath ;;;
  if String.eqb name__ "__main__" then smac_opt else ret tt.

End Harness.

(** [src/main/python/smac_optimize.py] *)
Module MainPython.
Definition n_params : Z := 5.
Definition trials : Z := 20.
Definition facade : Facade := SMAC4HPO.
(** Running the file as a script. *)
Definition run {W} {foreign_world : Foreign W} : M W unit :=
  module_body n_params trials facade "__main__".
End MainPython.

(** [src/python/smac_optimize.py] *)
Module Python.
Definition n_params : Z := 12.
Definition trials : Z := 100.
Definition facade : Facade := SMAC4BO.
(** Running the file as a script. *)
Definition run {W} {foreign_world : Foreign W} : M W unit :=
  module_body n_params trials facade "__main__".
End Python.

(** The calls of the Java entry point recorded in a trace, oldest first:
    each with its parameter vector and its number of games. *)
Definition evaluator_calls (tr : list event) : list (list float * Z) :=
  flat_map
    (fun e => match e with EvaluatorCall p n => [(p, n)] | _ => [] end) tr.

(** [s'] continues [s]: the environment is the same and the trace has grown
    by events that all satisfy [P]. *)
Definition continues {W} (P : event -> Prop) (s s' : state W) : Prop :=
  environ s' = environ s /\
  exists evs, trace s' = (trace s ++ evs)%list /\ Forall P evs.

(** A stand-in for the foreign side with fixed answers: every class is
    found, every evaluation scores [7.5], and the optimizer proposes the
    same configuration until its counter reaches three. *)
Definition sample_config : Configuration :=
  [("x1", 5%float); ("x0", 2%float); ("x2", 9%float)].

#[export] Instance stub_world : Foreign nat := {|
  jnius_autoclass := fun name w => (Ok (mkJavaClass name), w);
  java_runStrategyWithConfiguration := fun _ _ _ w => (Ok 7.5%float, S w);
  smac_construct := fun _ _ _ w => (Ok tt, w);
  smac_ask := fun w => (if Nat.ltb w 3 then Some sample_config else None, w);
  smac_tell := fun _ _ w => (Ok tt, w)
|}.

Definition stub_start : state nat := mkState 0%nat [] [].

(** A second stand-in, whose answers depend on what it is asked: the class
    is not found while the world is negative, and the evaluator scores a
    vector by its first entry and raises on the empty vector. The optimizer
    proposes nothing. *)
#[export] Instance probe_world : Foreign Z := {|
  jnius_autoclass := fun name w =>
    if w <? 0 then (Raised (JavaException "Class not found"), w)
    else (Ok (mkJavaClass name), w);
  java_runStrategyWithConfiguration := fun _ params _ w =>
    match params with
    | [] => (Raised (JavaException "empty configuration"), w + 1)
    | p :: _ => (Ok p, w + 1)
    end;
  smac_construct := fun _ _ _ w => (Ok tt, w);
  smac_ask := fun w => (None, w);
  smac_tell := fun _ _ w => (Ok tt, w)
|}.

Definition probe_start (w : Z) : state Z := mkState w [] [].

(** * Properties *)

(** ** Ranges, comprehensions and mappings *)

Lemma range_length (lo hi : Z) :
  List.length (range lo hi) = Z.to_nat (hi - lo).
Proof.
  unfold range. now rewrite length_map, length_seq.
Qed.

Lemma range_In (n i : Z) : In i (range 0 n) <-> 0 <= i < n.
Proof.
  unfold range. rewrite in_map_iff. split.
  - intros [k [<- Hk]]. apply in_seq in Hk. lia.
  - intros Hi. exists (Z.to_nat i). split; [lia|]. apply in_seq. lia.
Qed.

Lemma range_nth_error (n i : Z) :
  0 <= i < n -> nth_error (range 0 n) (Z.to_nat i) = Some i.
Proof.
  intros Hi. unfold range. rewrite nth_error_map, nth_error_seq.
  replace (Z.to_nat i <? Z.to_nat (n - 0))%nat with true
    by (symmetry; apply Nat.ltb_lt; lia).
  simpl. f_equal. lia.
Qed.

Lemma range_empty (n : Z) : n <= 0 -> range 0 n = [].
Proof.
  intros Hn. unfold range. now replace (Z.to_nat (n - 0)) with O by lia.
Qed.

Section Comprehension.

Context {A B : Type}.
Implicit Types (f g : A -> result B) (l : list A).

Lemma comprehension_ext f g l :
  (forall a, In a l -> f a = g a) ->
  comprehension f l = comprehension g l.
Proof.
  induction l as [|a l IH]; intros Hfg; simpl; [reflexivity|].
  rewrite <- (Hfg a (or_introl eq_refl)).
  rewrite IH by (intros; apply Hfg; now right).
  reflexivity.
Qed.

(** The comprehension succeeds exactly when every element does, and its
    value lists the element values in the order of [l]. *)
Lemma comprehension_Ok f l bs :
  comprehension f l = Ok bs <-> map f l = map Ok bs.
Proof.
  revert bs. induction l as [|a l IH]; intros bs; simpl.
  - split; intros E.
    + now injection E as <-.
    + destruct bs; [reflexivity|discriminate].
  - destruct (f a) as [b|e].
    + destruct (comprehension f l) as [bs'|e'].
      * split; intros E.
        -- injection E as <-. simpl. f_equal. now apply IH.
        -- destruct bs as [|b0 bs0]; [discriminate|].
           simpl in E. injection E as -> E. f_equal. f_equal.
           apply IH in E. now injection E.
      * split; intros E; [discriminate|].
        destruct bs as [|b0 bs0]; [discriminate|].
        simpl in E. injection E as _ E. apply IH in E. discriminate.
    + split; intros E; [discriminate|].
      destruct bs; discriminate.
Qed.

Lemma comprehension_total f l :
  (forall a, In a l -> exists b, f a = Ok b) ->
  exists bs, comprehension f l = Ok bs.
Proof.
  induction l as [|a l IH]; intros Hall; simpl.
  - now exists [].
  - destruct (Hall a (or_introl eq_refl)) as [b ->].
    destruct IH as [bs ->]; [intros; apply Hall; now right|].
    now exists (b :: bs).
Qed.

(** The first element that raises decides the exception. *)
Lemma comprehension_first_raise f l1 a l2 e :
  (forall a', In a' l1 -> exists b, f a' = Ok b) ->
  f a = Raised e ->
  comprehension f (l1 ++ a :: l2) = Raised e.
Proof.
  induction l1 as [|a1 l1 IH]; intros Hall Ha; simpl.
  - now rewrite Ha.
  - destruct (Hall a1 (or_introl eq_refl)) as [b ->].
    rewrite IH; [reflexivity| |assumption].
    intros; apply Hall; now right.
Qed.

(** A comprehension that meets a raising element raises at the first
    such element. *)
Lemma comprehension_raises f l a e :
  In a l -> f a = Raised e ->
  exists l1 a' l2 e',
    l = (l1 ++ a' :: l2)%list /\
    (forall a0, In a0 l1 -> exists b, f a0 = Ok b) /\
    f a' = Raised e' /\
    comprehension f l = Raised e'.
Proof.
  induction l as [|a0 l IH]; intros Hin Ha; [contradiction|]. simpl.
  destruct (f a0) as [b|e0] eqn:E0.
  - destruct Hin as [->|Hin]; [congruence|].
    destruct (IH Hin Ha) as (l1 & a' & l2 & e' & -> & Hok & Ha' & ->).
    exists (a0 :: l1), a', l2, e'. split; [reflexivity|].
    split; [|now split].
    intros a1 [<-|H1]; [now exists b|now apply Hok].
  - exists [], a0, l, e0. split; [reflexivity|].
    split; [intros ? []|now split].
Qed.

End Comprehension.

Section Mappings.

Context {V : Type}.
Implicit Types (d : dict V) (k : string).

Lemma get_Some_In d k v : get d k = Some v -> In (k, v) d.
Proof.
  induction d as [|[k' v'] d IH]; simpl; [discriminate|].
  destruct (String.eqb_spec k' k) as [->|Hne].
  - intros [= ->]. now left.
  - intros E. right. now apply IH.
Qed.

Lemma get_None d k : get d k = None <-> ~ In k (keys d).
Proof.
  induction d as [|[k' v'] d IH]; simpl.
  - tauto.
  - destruct (String.eqb_spec k' k) as [->|Hne].
    + split; [discriminate|]. intros H. exfalso. apply H. now left.
    + rewrite IH. tauto.
Qed.

Lemma get_In_keys d k : In k (keys d) -> exists v, get d k = Some v.
Proof.
  intros Hin. destruct (get d k) as [v|] eqn:E; [now exists v|].
  apply get_None in E. contradiction.
Qed.

(** With pairwise distinct keys, an item of the mapping is what [get]
    finds, wherever the item stands. *)
Lemma In_get d k v : NoDup (keys d) -> In (k, v) d -> get d k = Some v.
Proof.
  induction d as [|[k' v'] d IH]; simpl; [contradiction|].
  intros Hnd Hin. inversion Hnd as [|? ? Hnotin Hnd']; subst.
  destruct (String.eqb_spec k' k) as [->|Hne].
  - destruct Hin as [[= ->]|Hin]; [reflexivity|].
    exfalso. apply Hnotin. change k with (fst (k, v)). now apply in_map.
  - destruct Hin as [[= -> _]|Hin]; [contradiction|]. now apply IH.
Qed.

(** Lookup does not depend on the iteration order of the mapping. *)
Lemma get_Permutation d d' k :
  NoDup (keys d) -> Permutation d d' -> get d k = get d' k.
Proof.
  intros Hnd Hperm.
  assert (Hnd' : NoDup (keys d')).
  { unfold keys. eapply Permutation_NoDup; [|exact Hnd].
    now apply Permutation_map. }
  destruct (get d k) as [v|] eqn:E.
  - symmetry. apply In_get; [assumption|].
    eapply Permutation_in; [exact Hperm|]. now apply get_Some_In.
  - symmetry. apply get_None. apply get_None in E. intros Hin. apply E.
    unfold keys in *. eapply Permutation_in; [|exact Hin].
    apply Permutation_map. now apply Permutation_sym.
Qed.

Lemma get_setitem_same d k v : get (setitem d k v) k = Some v.
Proof.
  induction d as [|[k' v'] d IH]; simpl.
  - now rewrite String.eqb_refl.
  - destruct (String.eqb_spec k' k) as [->|Hne]; simpl.
    + now rewrite String.eqb_refl.
    + destruct (String.eqb_spec k' k); [contradiction|assumption].
Qed.

End Mappings.

(** ** One call of the callback *)

Section Callback.

Context {W : Type} {foreign_world : Foreign W}.
Variables (n trials : Z).
Implicit Types (x : Configuration) (s : state W).

Lemma fun_to_optimize_run x s :
  callback_run n trials x s (fun_to_optimize n trials x s).
Proof.
  unfold fun_to_optimize, autoclass, runStrategyWithConfiguration, print,
    bind, emit, foreign, lift, ret; simpl.
  destruct (jnius_autoclass "RunStrategy" (world s)) as [[cls|e] w] eqn:Ecls.
  - destruct (params_of n x) as [params|e] eqn:Eparams; simpl.
    + destruct (java_runStrategyWithConfiguration cls params trials w)
        as [[raw|e] w'] eqn:Erun; simpl;
        repeat rewrite <- app_assoc; simpl.
      * eapply run_scored; eassumption.
      * eapply run_failed; eassumption.
    + eapply run_key_error; eassumption.
  - now apply run_unresolved.
Qed.

Lemma params_of_length x params :
  params_of n x = Ok params -> List.length params = Z.to_nat n.
Proof.
  unfold params_of. intros E. apply comprehension_Ok in E.
  apply (f_equal (@List.length _)) in E.
  rewrite !length_map, range_length in E. rewrite <- E. f_equal. lia.
Qed.

(** The elements of the vector are the values of [x0], [x1], ... in this
    order. *)
Lemma params_of_values x params :
  params_of n x = Ok params <->
  map (fun i => get x (param_name i)) (range 0 n) = map Some params.
Proof.
  unfold params_of. rewrite comprehension_Ok.
  generalize (range 0 n) as l. intros l. revert params.
  induction l as [|i l IH]; intros [|p params]; simpl;
    try (split; [reflexivity || discriminate | reflexivity || discriminate]).
  unfold getitem at 1. specialize (IH params).
  destruct (get x (param_name i)) as [v|]; split; intros E;
    try discriminate; injection E as -> E; f_equal; now apply IH.
Qed.

Lemma fun_to_optimize_continues x s :
  continues (callback_event n trials) s (snd (fun_to_optimize n trials x s)).
Proof.
  destruct (fun_to_optimize_run x s) as
    [e w _|cls w e _ _|cls w params e w' _ Hp _|cls w params raw w' _ Hp _];
    (split; [reflexivity|]); simpl; eexists; (split; [reflexivity|]);
    repeat first [apply Forall_cons | apply Forall_nil]; simpl;
    try reflexivity; try exact I;
    (split; [reflexivity | now apply (params_of_length x)]).
Qed.

End Callback.

(** ** The run loop *)

Section Loop.

Context {W : Type} {foreign_world : Foreign W}.
Variable P : event -> Prop.

Lemma continues_refl (s : state W) : continues P s s.
Proof.
  split; [reflexivity|]. exists []. split; [now rewrite app_nil_r|constructor].
Qed.

Lemma continues_trans (s1 s2 s3 : state W) :
  continues P s1 s2 -> continues P s2 s3 -> continues P s1 s3.
Proof.
  intros [He1 (evs1 & Ht1 & Hp1)] [He2 (evs2 & Ht2 & Hp2)]. split.
  - congruence.
  - exists (evs1 ++ evs2)%list. split.
    + now rewrite Ht2, Ht1, app_assoc.
    + now apply Forall_app.
Qed.

(** A foreign call leaves environment and trace as they are. *)
Lemma foreign_continues {A} (f : W -> result A * W) (s : state W) :
  continues P s (snd (foreign f s)).
Proof.
  unfold foreign. destruct (f (world s)) as [r w]. simpl.
  split; [reflexivity|]. exists []. split; [now rewrite app_nil_r|constructor].
Qed.

Lemma optimize_loop_continues (tae : Configuration -> M W float) :
  (forall x s, continues P s (snd (tae x s))) ->
  forall budget s, continues P s (snd (optimize_loop tae budget s)).
Proof.
  intros Htae budget. induction budget as [|budget IH]; intros s; simpl.
  - apply continues_refl.
  - unfold bind at 1.
    pose proof (foreign_continues
                  (fun w => let (x, w') := smac_ask w in (Ok x, w')) s) as H0.
    destruct (foreign _ s) as [[next|e] s0] eqn:E0; simpl in H0;
      [|exact H0].
    destruct next as [x|]; [|exact H0].
    pose proof (Htae x s0) as H1.
    destruct (tae x s0) as [outcome s1]; simpl in H1.
    unfold bind.
    pose proof (foreign_continues (smac_tell x outcome) s1) as H2.
    destruct (foreign (smac_tell x outcome) s1) as [[[]|e] s2]; simpl in H2.
    + eapply continues_trans; [exact H0|].
      eapply continues_trans; [exact H1|].
      eapply continues_trans; [exact H2|]. apply IH.
    + eapply continues_trans; [exact H0|].
      eapply continues_trans; [exact H1|]. exact H2.
Qed.

End Loop.

(** ** Building the parameter vector *)

Section Vector.

Variable n : Z.
Implicit Types (x y : Configuration).

(** Every declared name is a key: the vector is built. *)
Lemma params_of_present x :
  (forall i, 0 <= i < n -> In (param_name i) (keys x)) ->
  exists params, params_of n x = Ok params.
Proof.
  intros Hall. apply comprehension_total. intros i Hi.
  apply range_In in Hi. destruct (get_In_keys x _ (Hall i Hi)) as [v Hv].
  exists v. unfold getitem. now rewrite Hv.
Qed.

(** Some declared name is not a key: the comprehension raises [KeyError]
    for the first such name, [x0], [x1], ... being tried in this order. *)
Lemma params_of_missing x i :
  0 <= i < n -> ~ In (param_name i) (keys x) ->
  exists j,
    0 <= j <= i /\
    ~ In (param_name j) (keys x) /\
    (forall i', 0 <= i' < j -> In (param_name i') (keys x)) /\
    params_of n x = Raised (KeyError (param_name j)).
Proof.
  intros Hi Hmiss.
  assert (Hraise : getitem x (param_name i) = Raised (KeyError (param_name i))).
  { unfold getitem. now rewrite (proj2 (get_None x _) Hmiss). }
  destruct (comprehension_raises
              (fun i => getitem x (param_name i)) (range 0 n) i _
              (proj2 (range_In n i) Hi) Hraise)
    as (l1 & j & l2 & e & Hsplit & Hok & Hj & Hres).
  assert (Hjn : 0 <= j < n).
  { apply range_In. rewrite Hsplit. apply in_or_app. right. now left. }
  assert (Hlen : j = Z.of_nat (List.length l1)).
  { pose proof (range_nth_error n j Hjn) as Hnth.
    pose proof (range_length 0 n) as Hlr.
    rewrite Hsplit, length_app in Hlr. simpl in Hlr.
    assert (Hat : nth_error (range 0 n) (List.length l1) = Some j).
    { rewrite Hsplit, nth_error_app2 by lia.
      now rewrite Nat.sub_diag. }
    rewrite <- (Nat2Z.id (List.length l1)) in Hat.
    rewrite range_nth_error in Hat by lia. now injection Hat. }
  assert (Hbelow : forall i', 0 <= i' < j -> In (param_name i') (keys x)).
  { intros i' Hi'.
    assert (Hin : In i' l1).
    { pose proof (range_nth_error n i' ltac:(lia)) as Hnth.
      rewrite Hsplit, nth_error_app1 in Hnth by lia.
      eapply nth_error_In; eassumption. }
    destruct (Hok i' Hin) as [v Hv]. unfold getitem in Hv.
    destruct (get x (param_name i')) as [v'|] eqn:Eg; [|discriminate].
    destruct (in_dec string_dec (param_name i') (keys x)) as [Hyes|Hno];
      [assumption|].
    apply get_None in Hno. congruence. }
  unfold getitem in Hj.
  destruct (get x (param_name j)) as [v|] eqn:Eg; [discriminate|].
  injection Hj as <-.
  exists j. split; [|split; [now apply get_None|split; assumption]].
  split; [lia|].
  destruct (Z_le_gt_dec j i) as [Hle|Hgt]; [assumption|].
  exfalso. apply Hmiss. apply Hbelow. lia.
Qed.

(** The vector depends on the values of the declared names only. *)
Lemma params_of_agree x y :
  (forall i, 0 <= i < n -> get x (param_name i) = get y (param_name i)) ->
  params_of n x = params_of n y.
Proof.
  intros Hagree. apply comprehension_ext. intros i Hi.
  apply range_In in Hi. unfold getitem. now rewrite (Hagree i Hi).
Qed.

End Vector.

(** ** Traces *)

Lemma evaluator_calls_app (tr1 tr2 : list event) :
  evaluator_calls (tr1 ++ tr2) =
  (evaluator_calls tr1 ++ evaluator_calls tr2)%list.
Proof. apply flat_map_app. Qed.

Section WholeRun.

Context {W : Type} {foreign_world : Foreign W}.
Variables (n trials : Z) (facade : Facade).

(** What [smac_opt] hands to the optimizer library: the facade is
    constructed with the scenario of the script and the random state of
    seed 42, and the run loop is entered with the callback under the cap
    of the scenario. *)
Lemma smac_opt_unfold (s : state W) :
  smac_opt n trials facade s =
  (foreign
     (smac_construct facade
        (mkScenario
           [ ("run_obj", VStr "quality");
             ("runcount-limit", VInt 999999);
             ("cs", VSpace (hyper_params n));
             ("deterministic", VStr "false") ])
        (mkRandomState 42)) ;;;
   optimize_loop (fun_to_optimize n trials) (Z.to_nat 999999)) s.
Proof.
  unfold smac_opt, configuration_space, add_hyperparameters, scenario,
    new_Scenario, new_SMAC, bind, ret.
  destruct (foreign _ s) as [[[]|e] s']; reflexivity.
Qed.

Lemma smac_opt_continues (s : state W) :
  continues (callback_event n trials) s (snd (smac_opt n trials facade s)).
Proof.
  rewrite smac_opt_unfold. unfold bind.
  match goal with
  | |- context [foreign ?f s] =>
      pose proof (foreign_continues (callback_event n trials) f s) as H0;
      destruct (foreign f s) as [[[]|e] s0]
  end; simpl in H0; [|exact H0].
  eapply continues_trans; [exact H0|].
  apply optimize_loop_continues. apply fun_to_optimize_continues.
Qed.

(** The whole module: the environment write comes first, and everything
    after it is an event of the callback. *)
Lemma module_body_trace (name__ : string) (s : state W) :
  exists evs,
    trace (snd (module_body n trials facade name__ s)) =
      (trace s ++ EnvironSet "CLASSPATH" classpath :: evs)%list /\
    Forall (callback_event n trials) evs /\
    environ (snd (module_body n trials facade name__ s)) =
      setitem (environ s) "CLASSPATH" classpath.
Proof.
  unfold module_body, bind, environ_setitem.
  set (s1 := mkState (world s) (setitem (environ s) "CLASSPATH" classpath)
                     (trace s ++ [EnvironSet "CLASSPATH" classpath])).
  destruct (String.eqb name__ "__main__").
  - destruct (smac_opt_continues s1) as [Henv (evs & Htr & Hall)].
    exists evs. rewrite Htr, Henv. unfold s1; simpl.
    rewrite <- app_assoc. auto.
  - exists []. unfold ret, s1; simpl. auto.
Qed.

End WholeRun.

(** ** The claims *)

(** C1. For a space of any size [n] and a configuration [x] whose keys are
    exactly the names [x0 .. x(n-1)], the vector the bridge passes to the
    evaluator lists the value of [x0], then of [x1], ..., then of
    [x(n-1)]; and a configuration [x'] with the same items in another
    iteration order leads to the same vector and the same evaluator call. *)
Theorem params_in_space_order {W : Type} {foreign_world : Foreign W}
    (n trials : Z) (x x' : Configuration) (s : state W)
    (cls : JavaClass) (w : W) :
  NoDup (keys x) ->
  (forall k, In k (keys x) <-> In k (map param_name (range 0 n))) ->
  Permutation x x' ->
  jnius_autoclass "RunStrategy" (world s) = (Ok cls, w) ->
  exists params,
    map (fun i => get x (param_name i)) (range 0 n) = map Some params /\
    evaluator_calls (trace (snd (fun_to_optimize n trials x s))) =
      (evaluator_calls (trace s) ++ [(params, trials)])%list /\
    evaluator_calls (trace (snd (fun_to_optimize n trials x' s))) =
      (evaluator_calls (trace s) ++ [(params, trials)])%list.
Proof.
  intros Hnd Hkeys Hperm Hcls.
  destruct (params_of_present n x) as [params Hp].
  { intros i Hi. apply Hkeys. apply in_map. now apply range_In. }
  assert (Hp' : params_of n x' = Ok params).
  { rewrite <- Hp. symmetry. apply params_of_agree. intros i _.
    now apply get_Permutation. }
  exists params. split; [now apply params_of_values|].
  split.
  - destruct (fun_to_optimize_run n trials x s) as
      [e w0 H0|cls0 w0 e H0 H1|cls0 w0 ps e w' H0 H1 _|cls0 w0 ps raw w' H0 H1 _];
      try congruence;
      rewrite Hp in H1; injection H1 as <-; simpl;
      rewrite evaluator_calls_app; reflexivity.
  - destruct (fun_to_optimize_run n trials x' s) as
      [e w0 H0|cls0 w0 e H0 H1|cls0 w0 ps e w' H0 H1 _|cls0 w0 ps raw w' H0 H1 _];
      try congruence;
      rewrite Hp' in H1; injection H1 as <-; simpl;
      rewrite evaluator_calls_app; reflexivity.
Qed.

(** The example of the specification: space [x0, x1, x2] and the
    configuration [{x1: 5, x0: 2, x2: 9}] give the vector [2, 5, 9], as
    does the same configuration listed in the order of the space. *)
Lemma params_in_space_order_witness :
  exists params,
    map (fun i => get sample_config (param_name i)) (range 0 3) =
      map Some params /\
    evaluator_calls
      (trace (snd (fun_to_optimize 3 20 sample_config stub_start))) =
      (evaluator_calls (trace stub_start) ++ [(params, 20)])%list /\
    evaluator_calls
      (trace (snd (fun_to_optimize 3 20
                     [("x0", 2%float); ("x1", 5%float); ("x2", 9%float)]
                     stub_start))) =
      (evaluator_calls (trace stub_start) ++ [(params, 20)])%list.
Proof.
  apply (params_in_space_order 3 20 sample_config
           [("x0", 2%float); ("x1", 5%float); ("x2", 9%float)]
           stub_start (mkJavaClass "RunStrategy") 0%nat).
  - repeat constructor; simpl; intuition discriminate.
  - intros k. simpl. tauto.
  - apply perm_swap.
  - reflexivity.
Defined.

(** C2. For a configuration the bridge accepts (its vector [params] is
    built) and whatever raw score [raw] the evaluator returns for
    [params], the bridge returns [- raw]. *)
Theorem bridge_returns_negated_score {W : Type} {foreign_world : Foreign W}
    (n trials : Z) (x : Configuration) (s : state W)
    (cls : JavaClass) (w w' : W) (params : list float) (raw : float) :
  jnius_autoclass "RunStrategy" (world s) = (Ok cls, w) ->
  params_of n x = Ok params ->
  java_runStrategyWithConfiguration cls params trials w = (Ok raw, w') ->
  fst (fun_to_optimize n trials x s) = Ok (- raw)%float.
Proof.
  intros Hcls Hp Hrun.
  destruct (fun_to_optimize_run n trials x s) as
    [e w0 H0|cls0 w0 e H0 H1|cls0 w0 ps e w1 H0 H1 H2|cls0 w0 ps r w1 H0 H1 H2];
    try congruence.
  rewrite Hcls in H0. injection H0 as <- <-.
  rewrite Hp in H1. injection H1 as <-.
  rewrite Hrun in H2. injection H2 as <- _. reflexivity.
Qed.

(** The example of the specification: raw score [7.5], returned [-7.5]. *)
Lemma bridge_returns_negated_score_witness :
  fst (fun_to_optimize 3 20 sample_config stub_start) = Ok (- 7.5)%float.
Proof.
  apply (bridge_returns_negated_score 3 20 sample_config stub_start
           (mkJavaClass "RunStrategy") 0%nat 1%nat
           [2%float; 5%float; 9%float] 7.5%float); reflexivity.
Defined.

(** C3. For every [n >= 1] the space built for [n] dimensions has exactly
    [n] hyperparameters, the one at position [i] being named [x{i}] with
    lower bound 0, upper bound 100 and default value 1. *)
Theorem configuration_space_specs {W : Type} (n : Z) (s : state W) :
  1 <= n ->
  exists cs,
    configuration_space n s = (Ok cs, s) /\
    List.length cs = Z.to_nat n /\
    forall i, 0 <= i < n ->
      nth_error cs (Z.to_nat i) = Some (mkUniformFloat ("x" ++ str i) 0 100 1).
Proof.
  intros Hn. exists (hyper_params n). split; [reflexivity|]. split.
  - unfold hyper_params. rewrite length_map, range_length. f_equal. lia.
  - intros i Hi. unfold hyper_params.
    erewrite map_nth_error; [reflexivity|]. now apply range_nth_error.
Qed.

Lemma configuration_space_specs_witness :
  exists cs,
    configuration_space MainPython.n_params stub_start = (Ok cs, stub_start) /\
    List.length cs = Z.to_nat MainPython.n_params /\
    forall i, 0 <= i < MainPython.n_params ->
      nth_error cs (Z.to_nat i) = Some (mkUniformFloat ("x" ++ str i) 0 100 1).
Proof.
  apply (configuration_space_specs MainPython.n_params stub_start).
  unfold MainPython.n_params. lia.
Defined.

(** The names of the two spaces of the scripts, written out. *)
Example main_python_names :
  map hp_name (hyper_params MainPython.n_params) =
  ["x0"; "x1"; "x2"; "x3"; "x4"].
Proof. reflexivity. Qed.

Example python_names :
  map hp_name (hyper_params Python.n_params) =
  ["x0"; "x1"; "x2"; "x3"; "x4"; "x5"; "x6"; "x7"; "x8"; "x9"; "x10"; "x11"].
Proof. reflexivity. Qed.

(** C4, as stated, fails on its second half: a configuration with the five
    declared names of the first script and one more key, [y], is evaluated
    like any other; nothing is raised. *)
Lemma extra_key_is_not_rejected :
  let x := [("x0", 1%float); ("x1", 1%float); ("x2", 1%float);
            ("x3", 1%float); ("x4", 1%float); ("y", 3%float)] in
  In "y" (keys x) /\
  ~ In "y" (map param_name (range 0 MainPython.n_params)) /\
  fst (fun_to_optimize MainPython.n_params MainPython.trials x stub_start) =
    Ok (- 7.5)%float.
Proof.
  simpl. split; [tauto|]. split; [|reflexivity].
  intuition discriminate.
Qed.

(** C4, amended. A configuration that has every declared name is
    accepted whatever other keys it has: once the evaluator class is
    resolved, the vector is built from the values of the declared names
    alone, and the call makes the evaluator call and returns what the
    evaluator's answer decides. Nothing in the callback looks at the other
    keys, so nothing can reject them. *)
Theorem extra_keys_are_accepted
    {W : Type} {foreign_world : Foreign W}
    (n trials : Z) (x : Configuration) (s : state W)
    (cls : JavaClass) (w : W) :
  jnius_autoclass "RunStrategy" (world s) = (Ok cls, w) ->
  (forall i, 0 <= i < n -> In (param_name i) (keys x)) ->
  exists params,
    params_of n x = Ok params /\
    map (fun i => get x (param_name i)) (range 0 n) = map Some params /\
    evaluator_calls (trace (snd (fun_to_optimize n trials x s))) =
      (evaluator_calls (trace s) ++ [(params, trials)])%list /\
    fst (fun_to_optimize n trials x s) =
      match fst (java_runStrategyWithConfiguration cls params trials w) with
      | Ok raw => Ok (- raw)%float
      | Raised e => Raised e
      end.
Proof.
  intros Hcls Hall. destruct (params_of_present n x Hall) as [params Hp].
  exists params. split; [assumption|].
  split; [now apply params_of_values|].
  destruct (fun_to_optimize_run n trials x s) as
    [e w0 H0|cls0 w0 e H0 H1|cls0 w0 ps e w' H0 H1 H2
    |cls0 w0 ps raw w' H0 H1 H2];
    try congruence;
    rewrite Hcls in H0; injection H0 as <- <-;
    rewrite Hp in H1; injection H1 as <-;
    rewrite H2; simpl; rewrite evaluator_calls_app; split; reflexivity.
Qed.

(** The configuration of the counterexample, with its undeclared key [y]:
    the five declared values are passed on and the score is negated. *)
Lemma extra_keys_are_accepted_witness :
  exists params,
    params_of 5
      [("x0", 1%float); ("x1", 1%float); ("x2", 1%float);
       ("x3", 1%float); ("x4", 1%float); ("y", 3%float)] = Ok params /\
    map (fun i =>
           get [("x0", 1%float); ("x1", 1%float); ("x2", 1%float);
                ("x3", 1%float); ("x4", 1%float); ("y", 3%float)]
               (param_name i)) (range 0 5) = map Some params /\
    evaluator_calls
      (trace (snd (fun_to_optimize 5 20
                     [("x0", 1%float); ("x1", 1%float); ("x2", 1%float);
                      ("x3", 1%float); ("x4", 1%float); ("y", 3%float)]
                     stub_start))) =
      (evaluator_calls (trace stub_start) ++ [(params, 20)])%list /\
    fst (fun_to_optimize 5 20
           [("x0", 1%float); ("x1", 1%float); ("x2", 1%float);
            ("x3", 1%float); ("x4", 1%float); ("y", 3%float)]
           stub_start) =
      match
        fst (java_runStrategyWithConfiguration
               (mkJavaClass "RunStrategy") params 20 0%nat)
      with
      | Ok raw => Ok (- raw)%float
      | Raised e => Raised e
      end.
Proof.
  apply (extra_keys_are_accepted 5 20
           [("x0", 1%float); ("x1", 1%float); ("x2", 1%float);
            ("x3", 1%float); ("x4", 1%float); ("y", 3%float)]
           stub_start (mkJavaClass "RunStrategy") 0%nat).
  - reflexivity.
  - intros i Hi.
    assert (Hcases : i = 0 \/ i = 1 \/ i = 2 \/ i = 3 \/ i = 4) by lia.
    destruct Hcases as [->|[->|[->|[->| ->]]]]; simpl; tauto.
Defined.

(** C9. Two configurations that give the same values to [x0 .. x(n-1)]
    yield the same vector and the same run of the callback, state by
    state: the same evaluator call with the same outcome and the same
    trace. Keys other than the declared ones have no influence. *)
Theorem undeclared_keys_have_no_influence
    {W : Type} {foreign_world : Foreign W}
    (n trials : Z) (x y : Configuration) :
  (forall i, 0 <= i < n -> get x (param_name i) = get y (param_name i)) ->
  params_of n x = params_of n y /\
  forall s : state W,
    fun_to_optimize n trials x s = fun_to_optimize n trials y s.
Proof.
  intros Hagree.
  pose proof (params_of_agree n x y Hagree) as Hp.
  split; [assumption|]. intros s.
  unfold fun_to_optimize. now rewrite Hp.
Qed.

Lemma undeclared_keys_have_no_influence_witness :
  params_of 3 sample_config =
    params_of 3 (("extra", 4%float) :: sample_config) /\
  forall s : state nat,
    fun_to_optimize 3 20 sample_config s =
    fun_to_optimize 3 20 (("extra", 4%float) :: sample_config) s.
Proof.
  apply (undeclared_keys_have_no_influence 3 20 sample_config
           (("extra", 4%float) :: sample_config)).
  intros i Hi.
  assert (Hcases : i = 0 \/ i = 1 \/ i = 2) by lia.
  destruct Hcases as [->|[->| ->]]; reflexivity.
Defined.

(** C10, as stated, fails: the class lookup runs before the vector is
    built, so for a configuration that lacks [x0] in a world without the
    class the exception is that of the lookup, not a key-lookup failure. *)
Lemma missing_key_with_unresolved_class :
  ~ In (param_name 0) (keys (@nil (string * float))) /\
  fst (fun_to_optimize 3 20 [] (probe_start (-1))) =
    Raised (JavaException "Class not found") /\
  forall k,
    fst (fun_to_optimize 3 20 [] (probe_start (-1))) <> Raised (KeyError k).
Proof.
  split; [intros []|]. split; [reflexivity|]. intros k. discriminate.
Qed.

(** C10, amended. When the construction of the vector raises, as the
    subscript of a mapping does on a key it lacks, the call ends in an
    exception and adds no evaluator call to the trace: the evaluator is not
    invoked for that trial. The exception is that of the construction when
    the evaluator class was resolved, and that of the class lookup, which
    runs first, otherwise. *)
Theorem failed_construction_never_reaches_evaluator
    {W : Type} {foreign_world : Foreign W}
    (n trials : Z) (x : Configuration) (s : state W) (e : exn) :
  params_of n x = Raised e ->
  (exists e', fst (fun_to_optimize n trials x s) = Raised e') /\
  evaluator_calls (trace (snd (fun_to_optimize n trials x s))) =
    evaluator_calls (trace s) /\
  (forall cls w,
     jnius_autoclass "RunStrategy" (world s) = (Ok cls, w) ->
     fst (fun_to_optimize n trials x s) = Raised e) /\
  (forall e0 w,
     jnius_autoclass "RunStrategy" (world s) = (Raised e0, w) ->
     fst (fun_to_optimize n trials x s) = Raised e0).
Proof.
  intros Hp.
  destruct (fun_to_optimize_run n trials x s) as
    [e1 w0 H0|cls0 w0 e1 H0 H1|cls0 w0 ps e1 w' H0 H1 _
    |cls0 w0 ps raw w' H0 H1 _];
    try congruence; simpl.
  - split; [now exists e1|]. split.
    + rewrite evaluator_calls_app. simpl. now rewrite app_nil_r.
    + split; intros ? ? Hcls; congruence.
  - split; [now exists e1|]. split.
    + rewrite evaluator_calls_app. simpl. now rewrite app_nil_r.
    + split; intros ? ? Hcls; congruence.
Qed.

(** A mapping without [x2], for three parameters: the construction raises
    [KeyError] for [x2], and so does the call, without evaluator call. *)
Lemma failed_construction_never_reaches_evaluator_witness :
  (exists e',
     fst (fun_to_optimize 3 20 [("x1", 5%float); ("x0", 2%float)] stub_start)
     = Raised e') /\
  evaluator_calls
    (trace (snd (fun_to_optimize 3 20 [("x1", 5%float); ("x0", 2%float)]
                   stub_start))) =
    evaluator_calls (trace stub_start) /\
  (forall cls w,
     jnius_autoclass "RunStrategy" (world stub_start) = (Ok cls, w) ->
     fst (fun_to_optimize 3 20 [("x1", 5%float); ("x0", 2%float)] stub_start)
     = Raised (KeyError "x2")) /\
  (forall e0 w,
     jnius_autoclass "RunStrategy" (world stub_start) = (Raised e0, w) ->
     fst (fun_to_optimize 3 20 [("x1", 5%float); ("x0", 2%float)] stub_start)
     = Raised e0).
Proof.
  apply (failed_construction_never_reaches_evaluator 3 20
           [("x1", 5%float); ("x0", 2%float)] stub_start (KeyError "x2")).
  reflexivity.
Defined.



(** A run against the stand-in: the optimizer stops after three trials,
    long before the cap, and each trial is one evaluator call. *)
Example three_trials :
  evaluator_calls (trace (snd (smac_opt 3 20 SMAC4HPO stub_start))) =
  [ ([2%float; 5%float; 9%float], 20);
    ([2%float; 5%float; 9%float], 20);
    ([2%float; 5%float; 9%float], 20) ].
Proof. vm_compute. reflexivity. Qed.

(** C7, as stated, fails on its first half: for [n = 0] the space is built
    and is empty; nothing is raised. *)
Lemma empty_space_is_not_rejected :
  0 <= 0 /\ configuration_space 0 stub_start = (Ok [], stub_start).
Proof. split; [lia|reflexivity]. Qed.

(** C7, amended. Building the space raises nothing: for [n <= 0] the
    result is the empty space, and every hyperparameter built has the
    bounds 0 and 100, so no bound is inverted. *)
Theorem configuration_space_never_fails {W : Type} (n : Z) (s : state W) :
  exists cs,
    configuration_space n s = (Ok cs, s) /\
    (n <= 0 -> cs = []) /\
    Forall (fun hp => hp_lower hp = 0 /\ hp_upper hp = 100 /\
                      hp_lower hp <= hp_upper hp) cs.
Proof.
  exists (hyper_params n). split; [reflexivity|]. split.
  - intros Hn. unfold hyper_params. now rewrite range_empty.
  - unfold hyper_params. apply Forall_map. apply Forall_forall.
    intros i _. simpl. lia.
Qed.

Lemma configuration_space_never_fails_witness :
  exists cs,
    configuration_space (-2) stub_start = (Ok cs, stub_start) /\
    (-2 <= 0 -> cs = []) /\
    Forall (fun hp => hp_lower hp = 0 /\ hp_upper hp = 100 /\
                      hp_lower hp <= hp_upper hp) cs.
Proof.
  apply (configuration_space_never_fails (-2) stub_start).
Defined.

(** C8. In a run of the module, whatever the profile and the foreign side,
    the first thing done is the assignment of [CLASSPATH]; nothing done
    afterwards writes the environment, and at the end [CLASSPATH] still
    has the value assigned. *)
Theorem classpath_assigned_once {W : Type} {foreign_world : Foreign W}
    (n trials : Z) (facade : Facade) (name__ : string) (s : state W) :
  exists evs,
    trace (snd (module_body n trials facade name__ s)) =
      (trace s ++ EnvironSet "CLASSPATH" classpath :: evs)%list /\
    Forall (fun e => writes_environ e = false) evs /\
    get (environ (snd (module_body n trials facade name__ s))) "CLASSPATH" =
      Some classpath.
Proof.
  destruct (module_body_trace n trials facade name__ s)
    as (evs & Htr & Hall & Henv).
  exists evs. split; [exact Htr|]. split.
  - eapply Forall_impl; [|exact Hall].
    intros [k v|name|line|p t]; simpl; [contradiction|reflexivity..].
  - rewrite Henv. apply get_setitem_same.
Qed.

(** * Further properties of the scripts *)

(** ** Names *)

(** The decimal text of an integer determines it. *)
Lemma str_inj (i j : Z) : str i = str j -> i = j.
Proof.
  unfold str. intros E. apply DecimalZ.to_int_inj.
  assert (Hnn : forall z, Z.to_int z <> Decimal.Pos Decimal.Nil /\
                          Z.to_int z <> Decimal.Neg Decimal.Nil).
  { intros [|p|p]; simpl; split; try discriminate;
      intros [= Hp]; now apply (Unsigned.to_uint_nonnil p). }
  destruct (Hnn i) as [Hi1 Hi2], (Hnn j) as [Hj1 Hj2].
  apply (f_equal NilZero.int_of_string) in E.
  rewrite !NilZero.isi in E by assumption. now injection E.
Qed.

Lemma param_name_inj (i j : Z) : param_name i = param_name j -> i = j.
Proof.
  unfold param_name. simpl. intros [= E]. now apply str_inj.
Qed.

Lemma range_NoDup (n : Z) : NoDup (range 0 n).
Proof.
  unfold range. apply Finite.Injective_map_NoDup_in; [|apply seq_NoDup].
  intros a b _ _ E. lia.
Qed.

(** ** Negation of scores *)

Lemma SFopp_involutive (f : spec_float) : SFopp (SFopp f) = f.
Proof. destruct f as [s|s| |s m e]; simpl; now rewrite ?negb_involutive. Qed.

Lemma float_opp_involutive (a : float) : (- (- a))%float = a.
Proof.
  rewrite <- (SF2Prim_Prim2SF (- (- a))), !opp_spec, SFopp_involutive.
  apply SF2Prim_Prim2SF.
Qed.

Lemma SFcompare_opp (f g : spec_float) :
  SFcompare (SFopp g) (SFopp f) = SFcompare f g.
Proof.
  destruct f as [s1|s1| |s1 m1 e1], g as [s2|s2| |s2 m2 e2]; simpl;
    try reflexivity;
    try (destruct s1; reflexivity);
    try (destruct s2; reflexivity);
    try (destruct s1, s2; reflexivity).
  destruct s1, s2; simpl; try reflexivity;
    rewrite (Z.compare_antisym e1 e2);
    destruct (e1 ?= e2); simpl; try reflexivity; f_equal.
  - exact (eq_sym (Pos.compare_cont_antisym m1 m2 Eq)).
  - exact (Pos.compare_cont_antisym m2 m1 Eq).
Qed.

Lemma float_ltb_opp (a b : float) : (- b <? - a)%float = (a <? b)%float.
Proof.
  rewrite !ltb_spec, !opp_spec. unfold SFltb. now rewrite SFcompare_opp.
Qed.

(** ** One call of the callback, case by case *)

(** X1. A call of the callback that returns a value [r] has built a vector
    and added exactly four events, in this order: the class lookup, the
    printed vector, the evaluator call with that same vector, and the
    printed line of the value returned. The environment is untouched. *)
Theorem scored_call_prints_what_it_passes_and_returns
    {W : Type} {foreign_world : Foreign W}
    (n trials : Z) (x : Configuration) (s : state W) (r : float) :
  fst (fun_to_optimize n trials x s) = Ok r ->
  exists params,
    params_of n x = Ok params /\
    trace (snd (fun_to_optimize n trials x s)) =
      (trace s ++ [AutoclassCall "RunStrategy"; PrintLine (PParams params);
                   EvaluatorCall params trials; PrintLine (PRet r)])%list /\
    environ (snd (fun_to_optimize n trials x s)) = environ s.
Proof.
  destruct (fun_to_optimize_run n trials x s) as
    [e w0 H0|cls0 w0 e H0 H1|cls0 w0 ps e w' H0 H1 H2
    |cls0 w0 ps raw w' H0 H1 H2]; simpl; intros E; try discriminate.
  injection E as <-. exists ps. now repeat split.
Qed.

Lemma scored_call_prints_what_it_passes_and_returns_witness :
  exists params,
    params_of 3 sample_config = Ok params /\
    trace (snd (fun_to_optimize 3 20 sample_config stub_start)) =
      (trace stub_start ++
       [AutoclassCall "RunStrategy"; PrintLine (PParams params);
        EvaluatorCall params 20; PrintLine (PRet (- 7.5)%float)])%list /\
    environ (snd (fun_to_optimize 3 20 sample_config stub_start)) =
      environ stub_start.
Proof.
  apply (scored_call_prints_what_it_passes_and_returns 3 20 sample_config
           stub_start (- 7.5)%float).
  reflexivity.
Defined.

(** X2. When the evaluator class cannot be found, the callback raises the
    exception of the lookup whatever the configuration is, complete or not:
    the configuration is not read, nothing is printed and the evaluator is
    not called. *)
Theorem unresolved_class_preempts_configuration
    {W : Type} {foreign_world : Foreign W}
    (n trials : Z) (x : Configuration) (s : state W) (e : exn) (w : W) :
  jnius_autoclass "RunStrategy" (world s) = (Raised e, w) ->
  fun_to_optimize n trials x s =
    (Raised e,
     mkState w (environ s) (trace s ++ [AutoclassCall "RunStrategy"])) /\
  evaluator_calls (trace (snd (fun_to_optimize n trials x s))) =
    evaluator_calls (trace s).
Proof.
  intros Hcls.
  destruct (fun_to_optimize_run n trials x s) as
    [e0 w0 H0|cls0 w0 e0 H0 H1|cls0 w0 ps e0 w' H0 H1 H2
    |cls0 w0 ps raw w' H0 H1 H2]; try congruence.
  rewrite Hcls in H0. injection H0 as <- <-. split; [reflexivity|].
  simpl. rewrite evaluator_calls_app. simpl. now rewrite app_nil_r.
Qed.

(** A configuration with no key at all, in a world without the class: the
    exception is that of the lookup, not a [KeyError]. *)
Lemma unresolved_class_preempts_configuration_witness :
  fun_to_optimize 3 20 [] (probe_start (-1)) =
    (Raised (JavaException "Class not found"),
     mkState (-1) (environ (probe_start (-1)))
       (trace (probe_start (-1)) ++ [AutoclassCall "RunStrategy"])) /\
  evaluator_calls (trace (snd (fun_to_optimize 3 20 [] (probe_start (-1))))) =
    evaluator_calls (trace (probe_start (-1))).
Proof.
  apply (unresolved_class_preempts_configuration 3 20 [] (probe_start (-1))
           (JavaException "Class not found") (-1)).
  reflexivity.
Defined.

(** X3. When the evaluator raises, the callback raises the same exception:
    the vector has been printed and passed, and no value line is printed. *)
Theorem evaluator_failure_propagates
    {W : Type} {foreign_world : Foreign W}
    (n trials : Z) (x : Configuration) (s : state W)
    (cls : JavaClass) (w w' : W) (params : list float) (e : exn) :
  jnius_autoclass "RunStrategy" (world s) = (Ok cls, w) ->
  params_of n x = Ok params ->
  java_runStrategyWithConfiguration cls params trials w = (Raised e, w') ->
  fun_to_optimize n trials x s =
    (Raised e,
     mkState w' (environ s)
       (trace s ++ [AutoclassCall "RunStrategy"; PrintLine (PParams params);
                    EvaluatorCall params trials])).
Proof.
  intros Hcls Hp Hrun.
  destruct (fun_to_optimize_run n trials x s) as
    [e0 w0 H0|cls0 w0 e0 H0 H1|cls0 w0 ps e0 w1 H0 H1 H2
    |cls0 w0 ps raw w1 H0 H1 H2]; congruence.
Qed.

Lemma evaluator_failure_propagates_witness :
  fun_to_optimize 0 20 sample_config (probe_start 0) =
    (Raised (JavaException "empty configuration"),
     mkState 1 (environ (probe_start 0))
       (trace (probe_start 0) ++
        [AutoclassCall "RunStrategy"; PrintLine (PParams []);
         EvaluatorCall [] 20])).
Proof.
  apply (evaluator_failure_propagates 0 20 sample_config (probe_start 0)
           (mkJavaClass "RunStrategy") 0 1 []
           (JavaException "empty configuration")); reflexivity.
Defined.

(** X4. Whatever happens in a call of the callback, it starts with the
    lookup of the class [RunStrategy], calls the evaluator at most once,
    and leaves the environment as it is. *)
Theorem callback_frame {W : Type} {foreign_world : Foreign W}
    (n trials : Z) (x : Configuration) (s : state W) :
  environ (snd (fun_to_optimize n trials x s)) = environ s /\
  exists evs,
    trace (snd (fun_to_optimize n trials x s)) =
      (trace s ++ AutoclassCall "RunStrategy" :: evs)%list /\
    (List.length (evaluator_calls evs) <= 1)%nat /\
    Forall (fun e => writes_environ e = false) evs.
Proof.
  destruct (fun_to_optimize_run n trials x s) as
    [e w0 H0|cls0 w0 e H0 H1|cls0 w0 ps e w' H0 H1 H2
    |cls0 w0 ps raw w' H0 H1 H2]; simpl;
    (split; [reflexivity|]); eexists; (split; [reflexivity|]); simpl;
    (split; [lia|]); repeat constructor.
Qed.

(** ** The vector and the space *)

(** A comprehension that raises does so at an element that raises, all the
    elements before it having a value. *)
Lemma comprehension_Raised {A B} (f : A -> result B) (l : list A) (e : exn) :
  comprehension f l = Raised e ->
  exists l1 a l2,
    l = (l1 ++ a :: l2)%list /\
    (forall a0, In a0 l1 -> exists b, f a0 = Ok b) /\
    f a = Raised e.
Proof.
  induction l as [|a0 l IH]; simpl; [discriminate|].
  destruct (f a0) as [b|e0] eqn:E0.
  - destruct (comprehension f l) as [bs|e1]; [discriminate|].
    intros [= ->]. destruct (IH eq_refl) as (l1 & a & l2 & -> & Hok & Ha).
    exists (a0 :: l1), a, l2. split; [reflexivity|]. split; [|assumption].
    intros a1 [<-|H1]; [now exists b|now apply Hok].
  - intros [= ->]. exists [], a0, l. split; [reflexivity|].
    split; [intros ? []|assumption].
Qed.

(** X5. A configuration that has a key for every hyperparameter of the
    space the script declares is accepted by the callback: the vector is
    built, it has one entry per hyperparameter, and its entry at the
    position of a hyperparameter is the value the configuration gives to
    the name of that hyperparameter. *)
Theorem configuration_over_space_is_accepted (n : Z) (x : Configuration) :
  (forall hp, In hp (hyper_params n) -> In (hp_name hp) (keys x)) ->
  exists params,
    params_of n x = Ok params /\
    List.length params = List.length (hyper_params n) /\
    map (fun hp => get x (hp_name hp)) (hyper_params n) = map Some params.
Proof.
  intros Hall.
  destruct (params_of_present n x) as [params Hp].
  { intros i Hi.
    apply (Hall (mkUniformFloat (param_name i) 0 100 1)).
    unfold hyper_params.
    apply (in_map (fun i => mkUniformFloat (param_name i) 0 100 1)).
    now apply range_In. }
  exists params. split; [assumption|]. split.
  - rewrite (params_of_length n x params Hp).
    unfold hyper_params. rewrite length_map, range_length. f_equal. lia.
  - unfold hyper_params. rewrite map_map. simpl.
    now apply params_of_values.
Qed.

Lemma configuration_over_space_is_accepted_witness :
  exists params,
    params_of 3 sample_config = Ok params /\
    List.length params = List.length (hyper_params 3) /\
    map (fun hp => get sample_config (hp_name hp)) (hyper_params 3) =
      map Some params.
Proof.
  apply (configuration_over_space_is_accepted 3 sample_config).
  intros hp Hin. simpl in Hin.
  destruct Hin as [<-|[<-|[<-|[]]]]; simpl; tauto.
Defined.

(** X6. The only way the construction of the vector fails is a [KeyError]
    for a declared name that is not a key of the configuration, namely the
    first such name in the order [x0], [x1], ... *)
Theorem vector_failure_is_first_missing_key
    (n : Z) (x : Configuration) (e : exn) :
  params_of n x = Raised e ->
  exists j,
    0 <= j < n /\
    e = KeyError (param_name j) /\
    ~ In (param_name j) (keys x) /\
    forall i, 0 <= i < j -> In (param_name i) (keys x).
Proof.
  intros Hp.
  destruct (comprehension_Raised _ _ _ Hp) as (l1 & a & l2 & Hsplit & _ & Ha).
  assert (Han : 0 <= a < n).
  { apply range_In. rewrite Hsplit. apply in_or_app. right. now left. }
  unfold getitem in Ha.
  destruct (get x (param_name a)) as [v|] eqn:Eg; [discriminate|].
  apply get_None in Eg.
  destruct (params_of_missing n x a Han Eg) as (j & Hj & Hjm & Hlow & Hpj).
  exists j. split; [lia|]. split; [congruence|]. now split.
Qed.

Lemma vector_failure_is_first_missing_key_witness :
  exists j,
    0 <= j < 5 /\
    KeyError "x2" = KeyError (param_name j) /\
    ~ In (param_name j) (keys [("x1", 5%float); ("x0", 2%float)]) /\
    forall i, 0 <= i < j ->
      In (param_name i) (keys [("x1", 5%float); ("x0", 2%float)]).
Proof.
  apply (vector_failure_is_first_missing_key 5
           [("x1", 5%float); ("x0", 2%float)] (KeyError "x2")).
  reflexivity.
Defined.

(** X7. Whatever the number of dimensions, the hyperparameters the script
    declares have pairwise distinct names, a lower bound strictly below the
    upper bound and a default value within the bounds. *)
Theorem space_is_well_formed (n : Z) :
  NoDup (map hp_name (hyper_params n)) /\
  Forall (fun hp => hp_lower hp < hp_upper hp /\
                    hp_lower hp <= hp_default_value hp <= hp_upper hp)
         (hyper_params n).
Proof.
  split.
  - unfold hyper_params. rewrite map_map. simpl.
    apply Finite.Injective_map_NoDup_in; [|apply range_NoDup].
    intros i j _ _. apply param_name_inj.
  - unfold hyper_params. apply Forall_map. apply Forall_forall.
    intros i _. simpl. lia.
Qed.

(** X8. With no dimension at all ([n <= 0]) the callback reads no key:
    every configuration, the empty one included, is accepted, and the
    evaluator is called once with the empty vector. *)
Theorem empty_space_passes_empty_vector
    {W : Type} {foreign_world : Foreign W}
    (n trials : Z) (x : Configuration) (s : state W)
    (cls : JavaClass) (w : W) :
  n <= 0 ->
  jnius_autoclass "RunStrategy" (world s) = (Ok cls, w) ->
  params_of n x = Ok [] /\
  evaluator_calls (trace (snd (fun_to_optimize n trials x s))) =
    (evaluator_calls (trace s) ++ [([], trials)])%list.
Proof.
  intros Hn Hcls.
  assert (Hp : params_of n x = Ok []).
  { unfold params_of. now rewrite range_empty. }
  split; [assumption|].
  destruct (fun_to_optimize_run n trials x s) as
    [e w0 H0|cls0 w0 e H0 H1|cls0 w0 ps e w' H0 H1 _|cls0 w0 ps raw w' H0 H1 _];
    try congruence;
    rewrite Hp in H1; injection H1 as <-; simpl;
    rewrite evaluator_calls_app; reflexivity.
Qed.

Lemma empty_space_passes_empty_vector_witness :
  params_of 0 [] = Ok [] /\
  evaluator_calls (trace (snd (fun_to_optimize 0 20 [] stub_start))) =
    (evaluator_calls (trace stub_start) ++ [([], 20)])%list.
Proof.
  apply (empty_space_passes_empty_vector 0 20 [] stub_start
           (mkJavaClass "RunStrategy") 0%nat).
  - lia.
  - reflexivity.
Defined.

(** ** The module body *)

(** X9. Loaded under any name other than [__main__], the module assigns
    [CLASSPATH] and does nothing else: no class is looked up, the evaluator
    is not called and the foreign side is not touched. *)
Theorem import_only_sets_classpath {W : Type} {foreign_world : Foreign W}
    (n trials : Z) (facade : Facade) (name__ : string) (s : state W) :
  name__ <> "__main__" ->
  module_body n trials facade name__ s =
    (Ok tt,
     mkState (world s) (setitem (environ s) "CLASSPATH" classpath)
       (trace s ++ [EnvironSet "CLASSPATH" classpath])).
Proof.
  intros Hname. unfold module_body, bind, environ_setitem.
  destruct (String.eqb_spec name__ "__main__"); [contradiction|reflexivity].
Qed.

Lemma import_only_sets_classpath_witness :
  module_body MainPython.n_params MainPython.trials MainPython.facade
    "smac_optimize" stub_start =
    (Ok tt,
     mkState (world stub_start)
       (setitem (environ stub_start) "CLASSPATH" classpath)
       (trace stub_start ++ [EnvironSet "CLASSPATH" classpath])).
Proof.
  apply (import_only_sets_classpath MainPython.n_params MainPython.trials
           MainPython.facade "smac_optimize" stub_start).
  discriminate.
Defined.

(** ** The sign of the returned value *)

(** X11. A value [r] returned by the callback comes from an evaluator call
    that answered [- r]: negating the returned value gives back the raw
    score of the vector built from the configuration. *)
Theorem returned_value_negates_back {W : Type} {foreign_world : Foreign W}
    (n trials : Z) (x : Configuration) (s : state W) (r : float) :
  fst (fun_to_optimize n trials x s) = Ok r ->
  exists cls w params w',
    jnius_autoclass "RunStrategy" (world s) = (Ok cls, w) /\
    params_of n x = Ok params /\
    java_runStrategyWithConfiguration cls params trials w =
      (Ok (- r)%float, w').
Proof.
  destruct (fun_to_optimize_run n trials x s) as
    [e w0 H0|cls0 w0 e H0 H1|cls0 w0 ps e w' H0 H1 H2
    |cls0 w0 ps raw w' H0 H1 H2]; simpl; intros E; try discriminate.
  injection E as <-. exists cls0, w0, ps, w'.
  rewrite float_opp_involutive. now repeat split.
Qed.

Lemma returned_value_negates_back_witness :
  exists cls w params w',
    jnius_autoclass "RunStrategy" (world stub_start) = (Ok cls, w) /\
    params_of 3 sample_config = Ok params /\
    java_runStrategyWithConfiguration cls params 20 w =
      (Ok (- (- 7.5))%float, w').
Proof.
  apply (returned_value_negates_back 3 20 sample_config stub_start
           (- 7.5)%float).
  reflexivity.
Defined.

(** X12. The callback reverses the order of scores: of two evaluations,
    the one with the higher raw score returns the lower value, so that a
    minimizing optimizer prefers it. *)
Theorem higher_score_returns_lower_value
    {W : Type} {foreign_world : Foreign W}
    (n trials : Z) (x1 x2 : Configuration) (s1 s2 : state W)
    (cls1 cls2 : JavaClass) (w1 w1' w2 w2' : W)
    (params1 params2 : list float) (raw1 raw2 : float) :
  jnius_autoclass "RunStrategy" (world s1) = (Ok cls1, w1) ->
  params_of n x1 = Ok params1 ->
  java_runStrategyWithConfiguration cls1 params1 trials w1 = (Ok raw1, w1') ->
  jnius_autoclass "RunStrategy" (world s2) = (Ok cls2, w2) ->
  params_of n x2 = Ok params2 ->
  java_runStrategyWithConfiguration cls2 params2 trials w2 = (Ok raw2, w2') ->
  exists r1 r2,
    fst (fun_to_optimize n trials x1 s1) = Ok r1 /\
    fst (fun_to_optimize n trials x2 s2) = Ok r2 /\
    (r1 <? r2)%float = (raw2 <? raw1)%float.
Proof.
  intros Hc1 Hp1 Hr1 Hc2 Hp2 Hr2.
  exists (- raw1)%float, (- raw2)%float.
  split; [|split].
  - destruct (fun_to_optimize_run n trials x1 s1) as
      [e w0 H0|cls0 w0 e H0 H1|cls0 w0 ps e w' H0 H1 H2
      |cls0 w0 ps raw w' H0 H1 H2]; simpl; congruence.
  - destruct (fun_to_optimize_run n trials x2 s2) as
      [e w0 H0|cls0 w0 e H0 H1|cls0 w0 ps e w' H0 H1 H2
      |cls0 w0 ps raw w' H0 H1 H2]; simpl; congruence.
  - apply float_ltb_opp.
Qed.

(** Two configurations scored 5 and 2 by the second stand-in: the first
    returns the lower value. *)
Lemma higher_score_returns_lower_value_witness :
  exists r1 r2,
    fst (fun_to_optimize 1 20 [("x0", 5%float)] (probe_start 0)) = Ok r1 /\
    fst (fun_to_optimize 1 20 [("x0", 2%float)] (probe_start 0)) = Ok r2 /\
    (r1 <? r2)%float = (2 <? 5)%float.
Proof.
  apply (higher_score_returns_lower_value 1 20
           [("x0", 5%float)] [("x0", 2%float)] (probe_start 0) (probe_start 0)
           (mkJavaClass "RunStrategy") (mkJavaClass "RunStrategy") 0 1 0 1
           [5%float] [2%float] 5%float 2%float); reflexivity.
Defined.
